(** * boost::stacktrace::frame

    A shallow embedding of [include/boost/stacktrace/frame.hpp]: the [frame]
    value type, its comparison, hashing and stream operators, and the
    [detail::backend] interface those operators call into.

    Data model.
    - [const void*] is a machine word.  An address is a [Z]; the values a
      pointer can really take are those of [valid_address w], where [w] is
      the width in bits of a pointer on the target.
    - [std::size_t] has the same width as a pointer on the flat-memory
      targets the header supports, and [reinterpret_cast<std::size_t>]
      keeps the bits: it is written out as reduction modulo [2^w].
    - [<] and [==] on pointers are the order and equality of the address
      values (the "platform dependant ordering" of the header's comment).
    - [std::string] is [string]. *)

From Stdlib Require Import ZArith Lia Bool.
From stdpp Require Import base list strings gmap.

Local Open Scope Z_scope.

(* ------------------------------------------------------------------ *)
(** ** Addresses *)

Definition address_t := Z.

(** The values of a [w]-bit pointer. *)
Definition valid_address (w : Z) (p : address_t) : Prop := 0 <= p < 2 ^ w.

(** The null pointer constant [0]. *)
Definition null : address_t := 0.

(** Contextual conversion of a pointer to [bool]: non-null is [true]. *)
Definition ptr_to_bool (p : address_t) : bool := negb (p =? null).

(** [reinterpret_cast<std::size_t>(p)] for a [w]-bit [std::size_t]. *)
Definition reinterpret_cast_size_t (w : Z) (p : address_t) : Z := p mod 2 ^ w.

(* ------------------------------------------------------------------ *)
(** ** class frame *)

(** [class frame { const void* addr_; ... }] *)
Record frame : Type := mk_frame { addr_ : address_t }.

(** [frame() : addr_(0) {}] *)
Definition frame_default : frame := {| addr_ := null |}.

(** [explicit frame(const void* addr) : addr_(addr) {}] *)
Definition frame_from (addr : address_t) : frame := {| addr_ := addr |}.

(** [const void* address() const { return addr_; }] *)
Definition address (f : frame) : address_t := addr_ f.

(** [bool empty() const { return !address(); }] *)
Definition empty (f : frame) : bool := negb (ptr_to_bool (address f)).

(** [bool operator!() const { return !address(); }] *)
Definition operator_not (f : frame) : bool := negb (ptr_to_bool (address f)).

(** Modelled from the spec: [BOOST_EXPLICIT_OPERATOR_BOOL_NOEXCEPT()] is a
    macro of [boost/core/explicit_operator_bool.hpp], which is not part of
    the source tree.  The header documents the conversion it declares as
    "[true] if [this->address() != 0]"; the macro obtains it from the
    class's own [operator!], as [!this->operator!()]. *)
Definition operator_bool (f : frame) : bool := negb (operator_not f).

(** Implicitly declared copy assignment, [frame& operator=(const frame&)]:
    the one member that replaces the stored address. *)
Definition operator_assign (this : frame) (other : frame) : frame :=
  {| addr_ := addr_ other |}.

(* ------------------------------------------------------------------ *)
(** ** Comparison operators and hashing *)

(** [operator<  : lhs.address() < rhs.address()] *)
Definition operator_lt (lhs rhs : frame) : bool := address lhs <? address rhs.

(** [operator>  : rhs < lhs] *)
Definition operator_gt (lhs rhs : frame) : bool := operator_lt rhs lhs.

(** [operator<= : !(lhs > rhs)] *)
Definition operator_le (lhs rhs : frame) : bool := negb (operator_gt lhs rhs).

(** [operator>= : !(lhs < rhs)] *)
Definition operator_ge (lhs rhs : frame) : bool := negb (operator_lt lhs rhs).

(** [operator== : lhs.address() == rhs.address()] *)
Definition operator_eq (lhs rhs : frame) : bool := address lhs =? address rhs.

(** [operator!= : !(lhs == rhs)] *)
Definition operator_ne (lhs rhs : frame) : bool := negb (operator_eq lhs rhs).

(** [hash_value : reinterpret_cast<std::size_t>(f.address())] *)
Definition hash_value (w : Z) (f : frame) : Z :=
  reinterpret_cast_size_t w (address f).

(** Exactly one of three booleans is [true]. *)
Definition exactly_one (x y z : bool) : bool :=
  match x, y, z with
  | true, false, false | false, true, false | false, false, true => true
  | _, _, _ => false
  end.

(* ------------------------------------------------------------------ *)
(** ** detail::backend *)

(** Where a function is defined, as debug information records it. *)
Record source_location : Type := mk_location { file : string; line : nat }.

(** [class backend]: the operations the header declares and leaves to the
    backend selected at build time.  [to_string] and [to_string_frames] are
    the two [to_string] overloads of the class.

    Modelled from the spec: [boost/stacktrace/detail/backend.ipp], which
    defines these operations and [frame::name], [frame::source_file] and
    [frame::source_line], is not part of the source tree.  What a backend
    can resolve is given by two partial lookups: [function_at] is the
    readable name of the function an address belongs to, [location_at] the
    file and line that define it; [None] is a resolution miss. *)
Class backend : Type := {
  to_string : address_t -> string;
  to_string_frames : list frame -> string;
  function_at : address_t -> option string;
  location_at : address_t -> option source_location
}.

(** A backend over a two-entry symbol table, for the examples below:
    [main] at 0x1000 with full line information, [helper] at 0x2000 with a
    file but no line. *)
Definition table_backend : backend := {|
  to_string := fun p =>
    if p =? 4096 then "main at main.cpp:12"
    else if p =? 8192 then "helper" else "??";
  to_string_frames := fun _ => "";
  function_at := fun p =>
    if p =? 4096 then Some "main"
    else if p =? 8192 then Some "helper" else None;
  location_at := fun p =>
    if p =? 4096 then Some {| file := "main.cpp"; line := 12 |}
    else if p =? 8192 then Some {| file := "helper.cpp"; line := 0 |}
    else None
|}.

(** Modelled from the spec: resolution of a frame (in [backend.ipp]).
    "Resolution miss (address unresolvable, stripped symbols, empty
    frame)": the empty frame resolves to nothing, any other frame to what
    the backend finds at its address. *)
Definition resolved_name `{backend} (f : frame) : option string :=
  if empty f then None else function_at (address f).

Definition resolved_location `{backend} (f : frame) : option source_location :=
  if empty f then None else location_at (address f).

(** Modelled from the spec: [frame::name] (in [backend.ipp]) "returns the
    resolved function name as text, or an empty string if unresolvable". *)
Definition name `{backend} (f : frame) : string :=
  match resolved_name f with
  | Some n => n
  | None => ""
  end.

(** Modelled from the spec: [frame::source_line] (in [backend.ipp])
    "returns the 1-based source line number, or 0 if unknown". *)
Definition source_line `{backend} (f : frame) : nat :=
  match resolved_location f with
  | Some loc => line loc
  | None => 0%nat
  end.

(** Modelled from the spec: [frame::source_file] (in [backend.ipp])
    "returns the path of the source file defining the frame's function, or
    empty string if the line number is unknown/zero". *)
Definition source_file `{backend} (f : frame) : string :=
  if Nat.eqb (source_line f) 0 then ""
  else match resolved_location f with
       | Some loc => file loc
       | None => ""
       end.

(** Modelled from the spec: [backend::collect(memory, size)] (in
    [backend.ipp]) "fills up to [capacity] raw addresses representing the
    current call stack ... into caller-owned storage; returns the number
    written", and "truncates, does not fail" on a deeper stack.

    [stack] is the live call stack, most recent frame first.  [memory] is
    the storage that starts at the pointer the caller passes, cell by cell;
    it may extend beyond the [size] cells the caller offers.  The loop
    writes [memory[count] = pc] while frames remain and [count < size]. *)
Fixpoint collect_loop (stack memory : list address_t) (size count : nat)
  : list address_t * nat :=
  match stack with
  | [] => (memory, count)
  | pc :: callers =>
      if (count <? size)%nat
      then collect_loop callers (<[count := pc]> memory) size (S count)
      else (memory, count)
  end.

Definition collect (stack memory : list address_t) (size : nat)
  : list address_t * nat :=
  collect_loop stack memory size 0.

(* ------------------------------------------------------------------ *)
(** ** Stream output *)

(** [std::basic_ostream<CharT, TraitsT>]: a stream type with the standard
    inserter for [std::string]. *)
Class basic_ostream (S : Type) : Type := {
  insert_string : S -> string -> S
}.

(** A stream that records the characters written to it. *)
Global Instance text_sink : basic_ostream string := {|
  insert_string := fun os s => os +:+ s
|}.

(** A narrow [std::ostream], as far as the standard inserter for
    [std::string] reads and changes it: the characters written so far,
    [width()], [fill()], whether the adjustment ([adjustfield]) is [left],
    and [good()].  The standard library is not part of the source tree;
    the inserter below follows the C++ standard ([string.io],
    [ostream.formatted.reqmts]). *)
Record ostream : Type := mk_ostream {
  os_written : string;
  os_width : nat;
  os_fill : Ascii.ascii;
  os_left : bool;
  os_good : bool
}.

(** [n] copies of the fill character. *)
Fixpoint fill_chars (n : nat) (c : Ascii.ascii) : string :=
  match n with
  | O => ""
  | S k => String c (fill_chars k c)
  end.

(** [operator<<(std::ostream&, const std::string&)], a formatted output
    function: on a stream that is not [good()] the sentry fails and
    nothing is written; otherwise the larger of [width()] and the
    string's size is written, the string padded with [fill()], after the
    text when the adjustment is [left] and before it otherwise, and
    [width(0)] is called. *)
Definition std_insert_string (os : ostream) (s : string) : ostream :=
  if os_good os then
    let pad := fill_chars (os_width os - String.length s) (os_fill os) in
    {| os_written :=
         os_written os +:+ (if os_left os then s +:+ pad else pad +:+ s);
       os_width := 0;
       os_fill := os_fill os;
       os_left := os_left os;
       os_good := true |}
  else os.

Global Instance std_ostream : basic_ostream ostream := {|
  insert_string := std_insert_string
|}.

(** A stream in its initial state: nothing written, [width()] 0, fill
    character space, right adjustment, [good()]. *)
Definition fresh_ostream : ostream :=
  {| os_written := ""; os_width := 0; os_fill := (Ascii.ascii_of_nat 32);
     os_left := false; os_good := true |}.

(** [operator<<(os, f) : os << backend::to_string(f.address())] *)
Definition operator_lshift {S : Type} `{basic_ostream S} `{backend}
  (os : S) (f : frame) : S :=
  insert_string os (to_string (address f)).

(* ------------------------------------------------------------------ *)
(** ** The configuration prelude of the header

    Lines 20-61 and 198-202 of [frame.hpp] are preprocessor code: they
    complete the link settings, pick a backend when the user named none,
    choose the replacement of [BOOST_STACKTRACE_FUNCTION] and decide
    whether [backend.ipp] is included.  The macros the header only tests
    with [defined] are a set of names; what the compiler and Boost.Config
    predefine with a value is the record [compiler]. *)

Abbreviation macros := (gset string).

(** [defined(X)] *)
Definition defined (x : string) (m : macros) : bool := bool_decide (x ∈ m).

(** [#define X] *)
Definition define (x : string) (m : macros) : macros := {[ x ]} ∪ m.

Definition STACKTRACE_LINK : string := "BOOST_STACKTRACE_LINK".
Definition STACKTRACE_DYN_LINK : string := "BOOST_STACKTRACE_DYN_LINK".
Definition ALL_DYN_LINK : string := "BOOST_ALL_DYN_LINK".
Definition INTERNAL_BUILD_LIBS : string := "BOOST_STACKTRACE_INTERNAL_BUILD_LIBS".
Definition USE_NOOP : string := "BOOST_STACKTRACE_USE_NOOP".
Definition USE_WINDBG : string := "BOOST_STACKTRACE_USE_WINDBG".
Definition USE_ADDR2LINE : string := "BOOST_STACKTRACE_USE_ADDR2LINE".
Definition USE_BACKTRACE : string := "BOOST_STACKTRACE_USE_BACKTRACE".
Definition USE_HEADER : string := "BOOST_STACKTRACE_USE_HEADER".
Definition WINDOWS : string := "BOOST_WINDOWS".

(** The five macros whose absence starts the autodetection (line 30). *)
Definition backend_macros : list string :=
  [USE_NOOP; USE_WINDBG; USE_ADDR2LINE; USE_BACKTRACE; USE_HEADER].

(** What the compiler provides: [__has_include] (when defined, the answer
    it gives for a header name), and the integer macros [__GNUC__] and
    [BOOST_CLANG] when defined. *)
Record compiler : Type := mk_compiler {
  has_include : option (string -> bool);
  gnuc : option Z;
  boost_clang : option Z
}.

(** An identifier in an [#if] expression: its value, 0 when undefined. *)
Definition if_value (x : option Z) : Z := default 0 x.

(** Lines 21-23: [DYN_LINK] without [LINK] defines [LINK]. *)
Definition complete_link (m : macros) : macros :=
  if negb (defined STACKTRACE_LINK m) && defined STACKTRACE_DYN_LINK m
  then define STACKTRACE_LINK m
  else m.

(** Lines 25-27: [LINK] without [DYN_LINK] under [BOOST_ALL_DYN_LINK]
    defines [DYN_LINK]. *)
Definition complete_dyn_link (m : macros) : macros :=
  if defined STACKTRACE_LINK m && negb (defined STACKTRACE_DYN_LINK m)
     && defined ALL_DYN_LINK m
  then define STACKTRACE_DYN_LINK m
  else m.

(** Lines 20-27, "Link or header only". *)
Definition link_or_header_only (m : macros) : macros :=
  complete_dyn_link (complete_link m).

(** Line 30-31: none of the five backend macros is defined. *)
Definition no_backend_chosen (m : macros) : bool :=
  negb (defined USE_NOOP m) && negb (defined USE_WINDBG m)
  && negb (defined USE_ADDR2LINE m) && negb (defined USE_BACKTRACE m)
  && negb (defined USE_HEADER m).

(** Lines 40-44: without a usable [__has_include], Windows decides. *)
Definition detect_by_platform (m : macros) : macros :=
  if defined WINDOWS m then define USE_WINDBG m else define USE_ADDR2LINE m.

(** Lines 30-47, "Backend autodetection". *)
Definition backend_autodetection (c : compiler) (m : macros) : macros :=
  if no_backend_chosen m then
    match has_include c with
    | Some probe =>
        if negb (bool_decide (is_Some (gnuc c)))
           || (4 <? if_value (gnuc c))
           || negb (if_value (boost_clang c) =? 0)
        then
          if probe "Dbgeng.h" then define USE_WINDBG m else define USE_ADDR2LINE m
        else detect_by_platform m
    | None => detect_by_platform m
    end
  else m.

(** The replacement text of [BOOST_STACKTRACE_FUNCTION]. *)
Inductive function_specifier : Type :=
| spec_symbol_export    (* BOOST_SYMBOL_EXPORT *)
| spec_symbol_import    (* BOOST_SYMBOL_IMPORT *)
| spec_none             (* empty replacement *)
| spec_inline.          (* inline *)

(** Lines 49-61. *)
Definition stacktrace_function (m : macros) : function_specifier :=
  if defined STACKTRACE_LINK m then
    if defined STACKTRACE_DYN_LINK m then
      if defined INTERNAL_BUILD_LIBS m then spec_symbol_export
      else spec_symbol_import
    else spec_none
  else spec_inline.

(** Lines 200-202: [#ifndef BOOST_STACKTRACE_LINK] includes [backend.ipp]. *)
Definition includes_backend_ipp (m : macros) : bool :=
  negb (defined STACKTRACE_LINK m).

(** The macro definitions in force after lines 20-47. *)
Definition prelude (c : compiler) (m : macros) : macros :=
  backend_autodetection c (link_or_header_only m).

(** The backend macros defined in [m], in the order of line 30. *)
Definition chosen_backends (m : macros) : list string :=
  List.filter (fun b => defined b m) backend_macros.

(** Frames inserted one after the other: [os << f1 << f2 << ...]. *)
Definition insert_frames {S : Type} `{basic_ostream S} `{backend}
  (os : S) (fs : list frame) : S :=
  foldl operator_lshift os fs.

(* ------------------------------------------------------------------ *)
(** ** Properties of the frame value type *)

Lemma operator_lt_spec (a b : frame) :
  operator_lt a b = true <-> address a < address b.
Proof. unfold operator_lt. apply Z.ltb_lt. Qed.

Lemma operator_eq_spec (a b : frame) :
  operator_eq a b = true <-> address a = address b.
Proof. unfold operator_eq. apply Z.eqb_eq. Qed.

Lemma frame_ext (a b : frame) : address a = address b -> a = b.
Proof. destruct a, b; simpl; congruence. Qed.

Lemma reinterpret_cast_size_t_valid (w : Z) (p : address_t) :
  valid_address w p -> reinterpret_cast_size_t w p = p.
Proof. intros Hp. unfold reinterpret_cast_size_t. now apply Z.mod_small. Qed.

(** C1: for every address [a], [frame(a).address() == a]. *)
Theorem address_frame_from (a : address_t) : address (frame_from a) = a.
Proof. reflexivity. Qed.

(** C2: [frame()] is empty, [frame(a)] is non-empty for every non-null [a],
    and [empty()] is [true] exactly when the boolean conversion is
    [false]. *)
Theorem empty_agrees_with_bool :
  empty frame_default = true /\
  (forall a : address_t, a <> null -> empty (frame_from a) = false) /\
  (forall f : frame, empty f = true <-> operator_bool f = false).
Proof.
  split; [reflexivity | split].
  - intros a Ha. unfold empty, ptr_to_bool, address; simpl.
    apply Z.eqb_neq in Ha. now rewrite Ha.
  - intros f. unfold operator_bool, operator_not, empty.
    destruct (ptr_to_bool (address f)); simpl; split; congruence.
Qed.

Lemma empty_agrees_with_bool_witness :
  4096 <> null /\ empty (frame_from 4096) = false.
Proof.
  split; [discriminate |].
  apply (proj1 (proj2 empty_agrees_with_bool)). discriminate.
Defined.

Lemma operator_lt_trans (a b c : frame) :
  operator_lt a b = true -> operator_lt b c = true -> operator_lt a c = true.
Proof. rewrite !operator_lt_spec. lia. Qed.

Lemma operator_lt_irrefl (a : frame) : operator_lt a a = false.
Proof. unfold operator_lt. apply Z.ltb_irrefl. Qed.

Lemma operator_trichotomy (a b : frame) :
  exactly_one (operator_lt a b) (operator_gt a b) (operator_eq a b) = true.
Proof.
  unfold operator_gt, operator_lt, operator_eq.
  destruct (Z.ltb_spec (address a) (address b)),
           (Z.ltb_spec (address b) (address a)),
           (Z.eqb_spec (address a) (address b)); simpl; try reflexivity; lia.
Qed.

(** C3: for all frames [a] and [b] exactly one of [a<b], [a>b], [a==b]
    holds, [<] is transitive (a strict total order on addresses),
    [a<=b] holds iff [!(a>b)], and [a>=b] holds iff [!(a<b)]. *)
Theorem comparison_total_order (a b c : frame) :
  exactly_one (operator_lt a b) (operator_gt a b) (operator_eq a b) = true /\
  (operator_lt a b = true -> operator_lt b c = true -> operator_lt a c = true) /\
  (operator_le a b = true <-> operator_gt a b = false) /\
  (operator_ge a b = true <-> operator_lt a b = false).
Proof.
  split; [apply operator_trichotomy |].
  split; [apply operator_lt_trans |].
  unfold operator_le, operator_ge.
  split; apply negb_true_iff.
Qed.

Lemma comparison_total_order_witness :
  operator_lt (frame_from 16) (frame_from 64) = true.
Proof.
  apply (proj1 (proj2 (comparison_total_order
                         (frame_from 16) (frame_from 32) (frame_from 64))));
    reflexivity.
Defined.

Lemma hash_value_range (w : Z) (f : frame) :
  0 <= w -> 0 <= hash_value w f < 2 ^ w.
Proof.
  intros Hw. unfold hash_value, reinterpret_cast_size_t.
  apply Z.mod_pos_bound. now apply Z.pow_pos_nonneg.
Qed.

(** C4: [hash_value(f)] is the address of [f] reinterpreted as an unsigned
    integer of the width of [std::size_t], which for a pointer value is
    the address itself, and equal addresses (equal frames) have equal
    hash values. *)
Theorem hash_value_consistent (w : Z) :
  (forall f : frame, hash_value w f = reinterpret_cast_size_t w (address f)) /\
  (forall f : frame, valid_address w (address f) -> hash_value w f = address f) /\
  (forall a a' : address_t,
      a = a' -> hash_value w (frame_from a) = hash_value w (frame_from a')) /\
  (forall f g : frame, operator_eq f g = true -> hash_value w f = hash_value w g).
Proof.
  repeat split.
  - intros f Hf. now apply reinterpret_cast_size_t_valid.
  - intros a a' ->. reflexivity.
  - intros f g Heq. apply operator_eq_spec in Heq.
    unfold hash_value. now rewrite Heq.
Qed.

Lemma hash_value_consistent_witness :
  hash_value 64 (frame_from 4096) = 4096 /\
  hash_value 64 (frame_from 4096) = hash_value 64 (frame_from (4000 + 96)).
Proof.
  split.
  - apply (proj1 (proj2 (hash_value_consistent 64)) (frame_from 4096)).
    unfold valid_address; simpl; split; [discriminate | reflexivity].
  - apply (proj1 (proj2 (proj2 (hash_value_consistent 64)))). reflexivity.
Defined.

(** C9: on pointer values the hash is injective: [hash_value(f) ==
    hash_value(g)] if and only if [f == g]. *)
Theorem hash_value_eq_iff (w : Z) (f g : frame) :
  valid_address w (address f) ->
  valid_address w (address g) ->
  hash_value w f = hash_value w g <-> operator_eq f g = true.
Proof.
  intros Hf Hg. unfold hash_value.
  rewrite !reinterpret_cast_size_t_valid by assumption.
  symmetry. apply operator_eq_spec.
Qed.

Lemma hash_value_eq_iff_witness :
  hash_value 64 (frame_from 4096) = hash_value 64 (frame_from 8192)
  <-> operator_eq (frame_from 4096) (frame_from 8192) = true.
Proof.
  apply (hash_value_eq_iff 64 (frame_from 4096) (frame_from 8192));
    unfold valid_address; simpl; split; first [discriminate | reflexivity].
Defined.

Example hash_value_distinct :
  hash_value 64 (frame_from 4096) <> hash_value 64 (frame_from 8192).
Proof. discriminate. Qed.

(* ------------------------------------------------------------------ *)
(** ** backend::collect *)

Lemma collect_loop_count_ge (stack memory : list address_t) (size count : nat) :
  (count <= snd (collect_loop stack memory size count))%nat.
Proof.
  revert memory count. induction stack as [| pc callers IH]; intros memory count.
  - simpl. lia.
  - simpl. destruct (Nat.ltb_spec count size) as [Hlt | Hge].
    + specialize (IH (<[count := pc]> memory) (S count)). lia.
    + simpl. lia.
Qed.

Lemma collect_loop_count (stack memory : list address_t) (size count : nat) :
  (count <= size)%nat ->
  snd (collect_loop stack memory size count)
  = Nat.min size (count + length stack).
Proof.
  revert memory count. induction stack as [| pc callers IH]; intros memory count Hle.
  - simpl. lia.
  - simpl. destruct (Nat.ltb_spec count size) as [Hlt | Hge].
    + rewrite IH by lia. lia.
    + simpl. lia.
Qed.

Lemma collect_loop_length (stack memory : list address_t) (size count : nat) :
  length (fst (collect_loop stack memory size count)) = length memory.
Proof.
  revert memory count. induction stack as [| pc callers IH]; intros memory count.
  - reflexivity.
  - simpl. destruct (Nat.ltb_spec count size) as [Hlt | Hge].
    + rewrite IH. apply length_insert.
    + reflexivity.
Qed.

(** Cells below the starting index and from the returned count on keep
    their contents. *)
Lemma collect_loop_untouched (stack memory : list address_t) (size count i : nat) :
  (i < count)%nat \/ (snd (collect_loop stack memory size count) <= i)%nat ->
  fst (collect_loop stack memory size count) !! i = memory !! i.
Proof.
  revert memory count. induction stack as [| pc callers IH]; intros memory count Hi.
  - reflexivity.
  - simpl in *. destruct (Nat.ltb_spec count size) as [Hlt | Hge].
    + pose proof (collect_loop_count_ge callers (<[count := pc]> memory)
                    size (S count)) as Hn.
      rewrite IH by lia.
      apply list_lookup_insert_ne. lia.
    + reflexivity.
Qed.

(** Cell [i] below the returned count holds the [i]-th frame of the stack. *)
Lemma collect_loop_written (stack memory : list address_t) (size count i : nat) :
  (count <= i)%nat ->
  (i < snd (collect_loop stack memory size count))%nat ->
  (i < length memory)%nat ->
  fst (collect_loop stack memory size count) !! i = stack !! (i - count)%nat.
Proof.
  revert memory count. induction stack as [| pc callers IH]; intros memory count Hlo Hhi Hlen.
  - simpl in Hhi. lia.
  - simpl in *. destruct (Nat.ltb_spec count size) as [Hlt | Hge].
    + destruct (decide (i = count)) as [-> | Hne].
      * rewrite collect_loop_untouched by lia.
        rewrite Nat.sub_diag. simpl.
        now apply list_lookup_insert_eq.
      * rewrite IH; [| lia | assumption | rewrite length_insert; lia].
        replace (i - count)%nat with (S (i - S count)) by lia.
        reflexivity.
    + simpl in Hhi. lia.
Qed.

(** C8: [collect(memory, size)] returns the number of addresses written,
    which is the smaller of [size] and the stack depth: never more than
    [size], exactly [size] on a deeper stack.  It writes the first frames
    of the stack to the first cells, leaves every cell from the returned
    count on as it was, and with [size == 0] returns 0 and leaves the
    memory unchanged. *)
Theorem collect_contract (stack memory : list address_t) (size : nat) :
  let r := collect stack memory size in
  (snd r <= size)%nat /\
  snd r = Nat.min size (length stack) /\
  ((size < length stack)%nat -> snd r = size) /\
  (forall i : nat, (snd r <= i)%nat -> fst r !! i = memory !! i) /\
  (forall i : nat, (i < snd r)%nat -> (i < length memory)%nat ->
                   fst r !! i = stack !! i) /\
  length (fst r) = length memory /\
  (size = 0%nat -> r = (memory, 0%nat)).
Proof.
  intros r. subst r. unfold collect.
  pose proof (collect_loop_count stack memory size 0 (Nat.le_0_l size)) as Hn.
  simpl in Hn.
  repeat split.
  - lia.
  - exact Hn.
  - lia.
  - intros i Hi. apply collect_loop_untouched. now right.
  - intros i Hi Hlen.
    rewrite collect_loop_written by (assumption || lia).
    now rewrite Nat.sub_0_r.
  - apply collect_loop_length.
  - intros ->. destruct stack; reflexivity.
Qed.

Lemma collect_contract_witness :
  collect [4096; 8192; 12288] [0; 0; 7; 7] 2 = ([4096; 8192; 7; 7], 2%nat) /\
  collect [4096; 8192; 12288] [7; 7] 0 = ([7; 7], 0%nat).
Proof.
  split.
  - reflexivity.
  - apply (proj2 (proj2 (proj2 (proj2 (proj2 (proj2
             (collect_contract [4096; 8192; 12288] [7; 7] 0))))))).
    reflexivity.
Defined.

(* ------------------------------------------------------------------ *)
(** ** Resolution through the backend *)

Section Resolution.
Context `{B : backend}.

Lemma resolved_name_empty (f : frame) :
  empty f = true -> resolved_name f = None.
Proof. unfold resolved_name. now intros ->. Qed.

Lemma resolved_location_empty (f : frame) :
  empty f = true -> resolved_location f = None.
Proof. unfold resolved_location. now intros ->. Qed.

Lemma source_file_known_line (f : frame) (loc : source_location) :
  resolved_location f = Some loc ->
  line loc <> 0%nat ->
  source_file f = file loc /\ source_line f = line loc.
Proof.
  intros Hloc Hline. unfold source_file, source_line. rewrite Hloc.
  apply Nat.eqb_neq in Hline. now rewrite Hline.
Qed.

Lemma string_app_cons (ch : Ascii.ascii) (s1 s2 : string) :
  String ch s1 +:+ s2 = String ch (s1 +:+ s2).
Proof. reflexivity. Qed.

Lemma string_app_assoc (s1 s2 s3 : string) :
  (s1 +:+ s2) +:+ s3 = s1 +:+ (s2 +:+ s3).
Proof.
  induction s1 as [| ch s1 IH]; [reflexivity |].
  rewrite !string_app_cons. f_equal. exact IH.
Qed.

Lemma string_app_empty_r (s : string) : s +:+ "" = s.
Proof.
  induction s as [| ch s IH]; [reflexivity |].
  rewrite string_app_cons. f_equal. exact IH.
Qed.


(** C6: the empty frame has an empty [name()], an empty [source_file()]
    and [source_line()] 0, whatever the backend resolves. *)
Theorem empty_frame_resolves_to_nothing :
  name frame_default = "" /\
  source_file frame_default = "" /\
  source_line frame_default = 0%nat.
Proof. repeat split. Qed.

(** C7: when [source_line()] is 0, [source_file()] is the empty string;
    otherwise [source_file()] is the file of the location the backend
    resolved for the frame, whose line is [source_line()]. *)
Theorem source_file_by_line (f : frame) :
  (source_line f = 0%nat -> source_file f = "") /\
  (source_line f <> 0%nat ->
   exists loc : source_location,
     resolved_location f = Some loc /\
     line loc = source_line f /\
     source_file f = file loc).
Proof.
  unfold source_file. split.
  - intros ->. reflexivity.
  - intros Hline. apply Nat.eqb_neq in Hline. rewrite Hline.
    unfold source_line in *.
    destruct (resolved_location f) as [loc |]; [| discriminate].
    exists loc. auto.
Qed.

End Resolution.

(* ------------------------------------------------------------------ *)
(** ** Examples on the table backend *)

Example name_main : @name table_backend (frame_from 4096) = "main".
Proof. reflexivity. Qed.

Example source_file_main :
  @source_file table_backend (frame_from 4096) = "main.cpp"
  /\ @source_line table_backend (frame_from 4096) = 12%nat.
Proof. split; reflexivity. Qed.

Example source_file_helper_no_line :
  @source_file table_backend (frame_from 8192) = ""
  /\ @source_line table_backend (frame_from 8192) = 0%nat.
Proof. split; reflexivity. Qed.

Example stream_two_frames :
  @operator_lshift _ _ table_backend
    (@operator_lshift _ _ table_backend "#0 " (frame_from 4096)) (frame_from 0)
  = "#0 main at main.cpp:12??".
Proof. reflexivity. Qed.

Example assign_replaces_address :
  address (operator_assign (frame_from 4096) (frame_from 8192)) = 8192.
Proof. reflexivity. Qed.



Example operator_lshift_failed_stream :
  @operator_lshift _ _ table_backend
    {| os_written := "x"; os_width := 0; os_fill := (Ascii.ascii_of_nat 32);
       os_left := false; os_good := false |}
    (frame_from 4096)
  = {| os_written := "x"; os_width := 0; os_fill := (Ascii.ascii_of_nat 32);
       os_left := false; os_good := false |}.
Proof. reflexivity. Qed.

Example operator_lshift_left_adjusted :
  os_written
    (@operator_lshift _ _ table_backend
       {| os_written := "["; os_width := 8; os_fill := (Ascii.ascii_of_nat 46);
          os_left := true; os_good := true |}
       (frame_from 8192))
  = "[helper..".
Proof. reflexivity. Qed.

Lemma source_file_by_line_witness :
  @source_line table_backend (frame_from 8192) = 0%nat /\
  @source_file table_backend (frame_from 8192) = "".
Proof.
  split; [reflexivity |].
  apply (proj1 (@source_file_by_line table_backend (frame_from 8192))).
  reflexivity.
Defined.

(* ------------------------------------------------------------------ *)
(** ** Examples on concrete frames *)

Example default_frame_is_null :
  address frame_default = 0 /\ operator_bool frame_default = false.
Proof. split; reflexivity. Qed.

Example bool_of_bound_frame :
  operator_bool (frame_from 4096) = true /\ operator_not (frame_from 4096) = false.
Proof. split; reflexivity. Qed.

Example compare_low_high :
  operator_lt (frame_from 16) (frame_from 64) = true /\
  operator_gt (frame_from 16) (frame_from 64) = false /\
  operator_le (frame_from 16) (frame_from 64) = true /\
  operator_ge (frame_from 16) (frame_from 64) = false /\
  operator_eq (frame_from 16) (frame_from 64) = false /\
  operator_ne (frame_from 16) (frame_from 64) = true.
Proof. repeat split. Qed.

Example compare_same_address :
  operator_eq (frame_from 64) (frame_from 64) = true /\
  operator_lt (frame_from 64) (frame_from 64) = false /\
  operator_le (frame_from 64) (frame_from 64) = true /\
  operator_ge (frame_from 64) (frame_from 64) = true /\
  hash_value 64 (frame_from 64) = hash_value 64 (frame_from 64).
Proof. repeat split. Qed.

Example hash_value_top_of_32_bits :
  hash_value 32 (frame_from 4294967295) = 4294967295.
Proof. reflexivity. Qed.

Example collect_shallow_stack :
  collect [4096; 8192] [0; 0; 0; 0; 9] 4 = ([4096; 8192; 0; 0; 9], 2%nat).
Proof. reflexivity. Qed.

Example collect_deep_stack :
  collect [4096; 8192; 12288; 16384] [0; 0; 9] 2 = ([4096; 8192; 9], 2%nat).
Proof. reflexivity. Qed.

Example collect_exact_fit :
  collect [4096; 8192] [0; 0; 9] 2 = ([4096; 8192; 9], 2%nat).
Proof. reflexivity. Qed.

(* ------------------------------------------------------------------ *)
(** ** The configuration prelude: link settings *)

Lemma defined_true (x : string) (m : macros) : defined x m = true <-> x ∈ m.
Proof. unfold defined. apply bool_decide_eq_true. Qed.

Lemma defined_false (x : string) (m : macros) : defined x m = false <-> x ∉ m.
Proof. unfold defined. apply bool_decide_eq_false. Qed.

Lemma defined_define (x y : string) (m : macros) :
  defined x (define y m) = String.eqb x y || defined x m.
Proof.
  unfold defined, define.
  destruct (String.eqb_spec x y) as [-> | Hne]; simpl.
  - apply bool_decide_eq_true, elem_of_union_l, elem_of_singleton. reflexivity.
  - apply bool_decide_ext. rewrite elem_of_union, elem_of_singleton. tauto.
Qed.

Lemma define_defined (x : string) (m : macros) :
  defined x m = true -> define x m = m.
Proof.
  rewrite defined_true. unfold define. intros Hx.
  apply set_eq. intros y. rewrite elem_of_union, elem_of_singleton.
  split; [intros [-> | Hy]; assumption | tauto].
Qed.

Lemma define_comm (x y : string) (m : macros) :
  define x (define y m) = define y (define x m).
Proof.
  unfold define. apply set_eq. intros z.
  rewrite !elem_of_union, !elem_of_singleton. tauto.
Qed.

Lemma define_subseteq (x : string) (m : macros) : m ⊆ define x m.
Proof. unfold define. apply union_subseteq_r. Qed.

(** Rewrites [defined] through [define] and decides the comparisons of
    macro names. *)
Ltac macro_simpl :=
  repeat (rewrite !defined_define
          || (progress cbn [String.eqb Ascii.eqb Bool.eqb orb andb negb]
                in *));
  unfold STACKTRACE_LINK, STACKTRACE_DYN_LINK, ALL_DYN_LINK,
    INTERNAL_BUILD_LIBS, USE_NOOP, USE_WINDBG, USE_ADDR2LINE, USE_BACKTRACE,
    USE_HEADER, WINDOWS in *;
  repeat (rewrite !defined_define
          || (progress cbn [String.eqb Ascii.eqb Bool.eqb orb andb negb]
                in *)).

(** Two macro names differ. *)
Ltac distinct_macros := apply String.eqb_neq; reflexivity.

Lemma link_or_header_only_link (m : macros) :
  defined STACKTRACE_LINK (link_or_header_only m)
  = defined STACKTRACE_LINK m || defined STACKTRACE_DYN_LINK m.
Proof.
  unfold link_or_header_only, complete_dyn_link, complete_link.
  destruct (defined STACKTRACE_LINK m) eqn:HL,
           (defined STACKTRACE_DYN_LINK m) eqn:HD,
           (defined ALL_DYN_LINK m) eqn:HA;
    macro_simpl; rewrite ?HL, ?HD, ?HA; macro_simpl; rewrite ?HL, ?HD, ?HA;
    reflexivity.
Qed.

Lemma link_or_header_only_dyn_link (m : macros) :
  defined STACKTRACE_DYN_LINK (link_or_header_only m)
  = defined STACKTRACE_DYN_LINK m
    || (defined STACKTRACE_LINK m && defined ALL_DYN_LINK m).
Proof.
  unfold link_or_header_only, complete_dyn_link, complete_link.
  destruct (defined STACKTRACE_LINK m) eqn:HL,
           (defined STACKTRACE_DYN_LINK m) eqn:HD,
           (defined ALL_DYN_LINK m) eqn:HA;
    macro_simpl; rewrite ?HL, ?HD, ?HA; macro_simpl; rewrite ?HL, ?HD, ?HA;
    reflexivity.
Qed.

Lemma link_or_header_only_other (x : string) (m : macros) :
  x <> STACKTRACE_LINK -> x <> STACKTRACE_DYN_LINK ->
  defined x (link_or_header_only m) = defined x m.
Proof.
  intros HL HD. apply String.eqb_neq in HL, HD.
  unfold link_or_header_only, complete_dyn_link, complete_link.
  repeat match goal with
         | |- context [if ?b then _ else _] => destruct b
         end;
    rewrite ?defined_define, ?HL, ?HD; reflexivity.
Qed.

Lemma link_or_header_only_idem (m : macros) :
  link_or_header_only (link_or_header_only m) = link_or_header_only m.
Proof.
  unfold link_or_header_only, complete_dyn_link, complete_link.
  destruct (defined STACKTRACE_LINK m) eqn:HL,
           (defined STACKTRACE_DYN_LINK m) eqn:HD,
           (defined ALL_DYN_LINK m) eqn:HA;
    macro_simpl; rewrite ?HL, ?HD, ?HA; macro_simpl; rewrite ?HL, ?HD, ?HA;
    macro_simpl; rewrite ?HL, ?HD, ?HA; reflexivity.
Qed.

Lemma link_or_header_only_define (x : string) (m : macros) :
  x <> STACKTRACE_LINK -> x <> STACKTRACE_DYN_LINK -> x <> ALL_DYN_LINK ->
  link_or_header_only (define x m) = define x (link_or_header_only m).
Proof.
  intros HL HD HA.
  apply not_eq_sym, String.eqb_neq in HL, HD, HA.
  unfold link_or_header_only, complete_dyn_link, complete_link.
  rewrite !defined_define, HL, HD; simpl.
  destruct (negb (defined STACKTRACE_LINK m) && defined STACKTRACE_DYN_LINK m);
    rewrite ?(define_comm STACKTRACE_LINK x), !defined_define, ?HL, ?HD, ?HA;
    simpl;
    match goal with
    | |- context [if ?b then _ else _] => destruct b
    end;
    rewrite ?(define_comm STACKTRACE_DYN_LINK x); reflexivity.
Qed.

(** X1: after lines 20-27 the library is linked exactly when the user
    defined [BOOST_STACKTRACE_LINK] or [BOOST_STACKTRACE_DYN_LINK], and
    linked dynamically exactly when the user defined
    [BOOST_STACKTRACE_DYN_LINK], or [BOOST_STACKTRACE_LINK] together with
    [BOOST_ALL_DYN_LINK]. *)
Theorem link_settings_from_user (m : macros) :
  defined STACKTRACE_LINK (link_or_header_only m)
  = defined STACKTRACE_LINK m || defined STACKTRACE_DYN_LINK m
  /\
  defined STACKTRACE_DYN_LINK (link_or_header_only m)
  = defined STACKTRACE_DYN_LINK m
    || (defined STACKTRACE_LINK m && defined ALL_DYN_LINK m).
Proof.
  split; [apply link_or_header_only_link | apply link_or_header_only_dyn_link].
Qed.

(** X2: after lines 20-27, [BOOST_STACKTRACE_DYN_LINK] is never defined
    without [BOOST_STACKTRACE_LINK], so the nested test of lines 49-50
    reaches the export/import branch for every dynamic configuration. *)
Theorem dyn_link_implies_link (m : macros) :
  defined STACKTRACE_DYN_LINK (link_or_header_only m) = true ->
  defined STACKTRACE_LINK (link_or_header_only m) = true /\
  stacktrace_function (link_or_header_only m)
  = (if defined INTERNAL_BUILD_LIBS m then spec_symbol_export
     else spec_symbol_import).
Proof.
  intros HD. unfold stacktrace_function. rewrite HD.
  rewrite (link_or_header_only_other INTERNAL_BUILD_LIBS) by distinct_macros.
  rewrite link_or_header_only_dyn_link in HD.
  rewrite link_or_header_only_link.
  destruct (defined STACKTRACE_LINK m), (defined STACKTRACE_DYN_LINK m);
    simpl in *; try discriminate; auto.
Qed.

Lemma dyn_link_implies_link_witness :
  defined STACKTRACE_DYN_LINK (link_or_header_only {[ STACKTRACE_DYN_LINK ]}) = true /\
  stacktrace_function (link_or_header_only {[ STACKTRACE_DYN_LINK ]})
  = spec_symbol_import.
Proof.
  split; [vm_compute; reflexivity |].
  refine (eq_trans (proj2 (dyn_link_implies_link {[ STACKTRACE_DYN_LINK ]} _)) _);
    vm_compute; reflexivity.
Defined.

(** X3: the functions the header declares are [inline] exactly when the
    header includes their definitions ([backend.ipp]) itself. *)
Theorem inline_iff_backend_included (m : macros) :
  stacktrace_function m = spec_inline <-> includes_backend_ipp m = true.
Proof.
  unfold stacktrace_function, includes_backend_ipp.
  destruct (defined STACKTRACE_LINK m), (defined STACKTRACE_DYN_LINK m),
           (defined INTERNAL_BUILD_LIBS m); simpl; split; congruence.
Qed.

(** X4: with neither [BOOST_STACKTRACE_LINK] nor
    [BOOST_STACKTRACE_DYN_LINK] defined the header stays header-only,
    whatever else is defined ([BOOST_ALL_DYN_LINK] included): lines 20-27
    define nothing, the functions are [inline] and [backend.ipp] is
    included. *)
Theorem header_only_by_default (m : macros) :
  defined STACKTRACE_LINK m = false ->
  defined STACKTRACE_DYN_LINK m = false ->
  link_or_header_only m = m /\
  stacktrace_function (link_or_header_only m) = spec_inline /\
  includes_backend_ipp (link_or_header_only m) = true.
Proof.
  intros HL HD.
  assert (Hm : link_or_header_only m = m).
  { unfold link_or_header_only, complete_dyn_link, complete_link.
    rewrite HL, HD; simpl. now rewrite HL. }
  rewrite Hm. unfold stacktrace_function, includes_backend_ipp.
  now rewrite HL.
Qed.

Lemma header_only_by_default_witness :
  stacktrace_function (link_or_header_only {[ ALL_DYN_LINK ]}) = spec_inline.
Proof.
  refine (proj1 (proj2 (header_only_by_default
                          ({[ ALL_DYN_LINK ]} : macros) _ _)));
    vm_compute; reflexivity.
Defined.

(* ------------------------------------------------------------------ *)
(** ** The configuration prelude: backend autodetection *)

Lemma no_backend_chosen_spec (m : macros) :
  no_backend_chosen m = true <->
  defined USE_NOOP m = false /\ defined USE_WINDBG m = false /\
  defined USE_ADDR2LINE m = false /\ defined USE_BACKTRACE m = false /\
  defined USE_HEADER m = false.
Proof.
  unfold no_backend_chosen.
  rewrite !andb_true_iff, !negb_true_iff. tauto.
Qed.

Lemma chosen_backends_nil (m : macros) :
  chosen_backends m = [] <-> no_backend_chosen m = true.
Proof.
  rewrite no_backend_chosen_spec.
  unfold chosen_backends, backend_macros. cbn [List.filter].
  destruct (defined USE_NOOP m), (defined USE_WINDBG m),
           (defined USE_ADDR2LINE m), (defined USE_BACKTRACE m),
           (defined USE_HEADER m); simpl; split;
    first [discriminate | tauto | intros (? & ? & ? & ? & ?); discriminate].
Qed.

Lemma chosen_backends_link_or_header_only (m : macros) :
  chosen_backends (link_or_header_only m) = chosen_backends m.
Proof.
  unfold chosen_backends, backend_macros. cbn [List.filter].
  rewrite (link_or_header_only_other USE_NOOP) by distinct_macros.
  rewrite (link_or_header_only_other USE_WINDBG) by distinct_macros.
  rewrite (link_or_header_only_other USE_ADDR2LINE) by distinct_macros.
  rewrite (link_or_header_only_other USE_BACKTRACE) by distinct_macros.
  rewrite (link_or_header_only_other USE_HEADER) by distinct_macros.
  reflexivity.
Qed.

Lemma no_backend_chosen_link_or_header_only (m : macros) :
  no_backend_chosen (link_or_header_only m) = no_backend_chosen m.
Proof.
  unfold no_backend_chosen.
  rewrite (link_or_header_only_other USE_NOOP) by distinct_macros.
  rewrite (link_or_header_only_other USE_WINDBG) by distinct_macros.
  rewrite (link_or_header_only_other USE_ADDR2LINE) by distinct_macros.
  rewrite (link_or_header_only_other USE_BACKTRACE) by distinct_macros.
  rewrite (link_or_header_only_other USE_HEADER) by distinct_macros.
  reflexivity.
Qed.

(** What the autodetection can do to the set of macros. *)
Lemma backend_autodetection_cases (c : compiler) (m : macros) :
  if no_backend_chosen m
  then backend_autodetection c m = define USE_WINDBG m
       \/ backend_autodetection c m = define USE_ADDR2LINE m
  else backend_autodetection c m = m.
Proof.
  unfold backend_autodetection, detect_by_platform.
  destruct (no_backend_chosen m); [| reflexivity].
  destruct (has_include c) as [probe |].
  - destruct (negb (bool_decide (is_Some (gnuc c)))
              || (4 <? if_value (gnuc c))
              || negb (if_value (boost_clang c) =? 0)).
    + destruct (probe "Dbgeng.h"); [left | right]; reflexivity.
    + destruct (defined WINDOWS m); [left | right]; reflexivity.
  - destruct (defined WINDOWS m); [left | right]; reflexivity.
Qed.

Lemma chosen_backends_define_windbg (m : macros) :
  no_backend_chosen m = true ->
  chosen_backends (define USE_WINDBG m) = [USE_WINDBG].
Proof.
  intros (H1 & H2 & H3 & H4 & H5)%no_backend_chosen_spec.
  unfold chosen_backends, backend_macros. cbn [List.filter].
  rewrite !defined_define, H1, H2, H3, H4, H5. reflexivity.
Qed.

Lemma chosen_backends_define_addr2line (m : macros) :
  no_backend_chosen m = true ->
  chosen_backends (define USE_ADDR2LINE m) = [USE_ADDR2LINE].
Proof.
  intros (H1 & H2 & H3 & H4 & H5)%no_backend_chosen_spec.
  unfold chosen_backends, backend_macros. cbn [List.filter].
  rewrite !defined_define, H1, H2, H3, H4, H5. reflexivity.
Qed.

Lemma chosen_backends_defined (m : macros) :
  chosen_backends m <> [] ->
  exists b : string, b ∈ backend_macros /\ defined b m = true.
Proof.
  intros Hne.
  destruct (chosen_backends m) as [| b rest] eqn:Hc; [congruence |].
  exists b.
  assert (Hin : In b (chosen_backends m)) by (rewrite Hc; now left).
  unfold chosen_backends in Hin. apply filter_In in Hin as [Hin Hdef].
  split; [now apply list_elem_of_In | exact Hdef].
Qed.

(** X5: after lines 20-47 at least one backend macro is defined, whatever
    the user and the compiler defined before. *)
Theorem prelude_selects_backend (c : compiler) (m : macros) :
  exists b : string, b ∈ backend_macros /\ defined b (prelude c m) = true.
Proof.
  apply chosen_backends_defined. unfold prelude.
  pose proof (backend_autodetection_cases c (link_or_header_only m)) as Hc.
  destruct (no_backend_chosen (link_or_header_only m)) eqn:Hn.
  - destruct Hc as [-> | ->].
    + now rewrite chosen_backends_define_windbg.
    + now rewrite chosen_backends_define_addr2line.
  - rewrite Hc, chosen_backends_nil, Hn. discriminate.
Qed.

(** X6: a backend macro the user defined switches the autodetection off:
    lines 30-47 define nothing, and the backend macros in force after the
    prelude are those of the user. *)
Theorem autodetection_keeps_user_choice (c : compiler) (m : macros) :
  chosen_backends m <> [] ->
  backend_autodetection c m = m /\
  chosen_backends (prelude c m) = chosen_backends m.
Proof.
  intros Hb. rewrite chosen_backends_nil in Hb.
  apply not_true_is_false in Hb.
  split.
  - unfold backend_autodetection. now rewrite Hb.
  - unfold prelude, backend_autodetection.
    rewrite no_backend_chosen_link_or_header_only, Hb.
    apply chosen_backends_link_or_header_only.
Qed.

Lemma autodetection_keeps_user_choice_witness :
  chosen_backends
    (prelude {| has_include := Some (fun _ => true); gnuc := None;
                boost_clang := None |}
             {[ USE_NOOP; WINDOWS ]})
  = [USE_NOOP].
Proof.
  refine (eq_trans
            (proj2 (autodetection_keeps_user_choice
                      {| has_include := Some (fun _ => true); gnuc := None;
                         boost_clang := None |}
                      ({[ USE_NOOP; WINDOWS ]} : macros) _)) _).
  - vm_compute. discriminate.
  - vm_compute. reflexivity.
Defined.

(** X7: when the user defined no backend macro, the prelude defines
    exactly one, and it is the debugger engine ([USE_WINDBG]) or addr2line
    ([USE_ADDR2LINE]): the no-op and backtrace backends are never picked
    automatically. *)
Theorem autodetection_picks_one (c : compiler) (m : macros) :
  chosen_backends m = [] ->
  chosen_backends (prelude c m) = [USE_WINDBG]
  \/ chosen_backends (prelude c m) = [USE_ADDR2LINE].
Proof.
  intros Hb. rewrite chosen_backends_nil in Hb.
  rewrite <- no_backend_chosen_link_or_header_only in Hb.
  unfold prelude.
  pose proof (backend_autodetection_cases c (link_or_header_only m)) as Hc.
  rewrite Hb in Hc. destruct Hc as [-> | ->].
  - left. now apply chosen_backends_define_windbg.
  - right. now apply chosen_backends_define_addr2line.
Qed.

Lemma autodetection_picks_one_witness :
  chosen_backends
    (prelude {| has_include := None; gnuc := Some 4; boost_clang := None |}
             {[ STACKTRACE_DYN_LINK ]})
  = [USE_WINDBG]
  \/
  chosen_backends
    (prelude {| has_include := None; gnuc := Some 4; boost_clang := None |}
             {[ STACKTRACE_DYN_LINK ]})
  = [USE_ADDR2LINE].
Proof.
  apply (autodetection_picks_one
           {| has_include := None; gnuc := Some 4; boost_clang := None |}
           ({[ STACKTRACE_DYN_LINK ]} : macros)).
  vm_compute. reflexivity.
Defined.

(** X8: GCC up to version 4 (and not clang) never has [__has_include]
    consulted: the pick is made from [BOOST_WINDOWS] alone, whatever
    [__has_include] would answer. *)
Theorem old_gcc_detects_by_platform (c : compiler) (m : macros) (v : Z) :
  gnuc c = Some v -> v <= 4 -> if_value (boost_clang c) = 0 ->
  backend_autodetection c m
  = if no_backend_chosen m then detect_by_platform m else m.
Proof.
  intros Hg Hv Hc. unfold backend_autodetection.
  destruct (no_backend_chosen m); [| reflexivity].
  destruct (has_include c) as [probe |]; [| reflexivity].
  rewrite Hg, Hc. simpl if_value.
  replace (4 <? v) with false by (symmetry; apply Z.ltb_ge; lia).
  reflexivity.
Qed.

Lemma old_gcc_detects_by_platform_witness :
  backend_autodetection
    {| has_include := Some (fun _ => true); gnuc := Some 4;
       boost_clang := None |} ∅
  = define USE_ADDR2LINE ∅.
Proof.
  refine (eq_trans
            (old_gcc_detects_by_platform
               {| has_include := Some (fun _ => true); gnuc := Some 4;
                  boost_clang := None |} (∅ : macros) 4 _ _ _) _).
  - reflexivity.
  - vm_compute. discriminate.
  - reflexivity.
  - vm_compute. reflexivity.
Defined.

Lemma link_or_header_only_subseteq (m : macros) : m ⊆ link_or_header_only m.
Proof.
  unfold link_or_header_only, complete_dyn_link, complete_link.
  repeat match goal with
         | |- context [if ?b then _ else _] => destruct b
         end;
    repeat first [reflexivity
                 | etrans; [| apply define_subseteq]].
Qed.

Lemma backend_autodetection_subseteq (c : compiler) (m : macros) :
  m ⊆ backend_autodetection c m.
Proof.
  pose proof (backend_autodetection_cases c m) as Hc.
  destruct (no_backend_chosen m); [destruct Hc as [-> | ->] | rewrite Hc].
  - apply define_subseteq.
  - apply define_subseteq.
  - reflexivity.
Qed.

Lemma backend_autodetection_other (c : compiler) (x : string) (m : macros) :
  x <> USE_WINDBG -> x <> USE_ADDR2LINE ->
  defined x (backend_autodetection c m) = defined x m.
Proof.
  intros HW HA. apply String.eqb_neq in HW, HA.
  pose proof (backend_autodetection_cases c m) as Hc.
  destruct (no_backend_chosen m); [destruct Hc as [-> | ->] | rewrite Hc].
  - now rewrite defined_define, HW.
  - now rewrite defined_define, HA.
  - reflexivity.
Qed.

(** X9: the prelude undefines nothing, and the only macros it can define
    are [BOOST_STACKTRACE_LINK], [BOOST_STACKTRACE_DYN_LINK],
    [BOOST_STACKTRACE_USE_WINDBG] and [BOOST_STACKTRACE_USE_ADDR2LINE]. *)
Theorem prelude_only_defines (c : compiler) (m : macros) :
  m ⊆ prelude c m /\
  (forall x : string,
      x ∉ [STACKTRACE_LINK; STACKTRACE_DYN_LINK; USE_WINDBG; USE_ADDR2LINE] ->
      defined x (prelude c m) = defined x m).
Proof.
  unfold prelude. split.
  - etrans; [apply link_or_header_only_subseteq |].
    apply backend_autodetection_subseteq.
  - intros x Hx.
    apply not_elem_of_cons in Hx as [HL Hx].
    apply not_elem_of_cons in Hx as [HD Hx].
    apply not_elem_of_cons in Hx as [HW Hx].
    apply not_elem_of_cons in Hx as [HA _].
    rewrite backend_autodetection_other by assumption.
    now apply link_or_header_only_other.
Qed.

Lemma prelude_only_defines_witness :
  defined USE_NOOP
    (prelude {| has_include := None; gnuc := None; boost_clang := None |} ∅)
  = defined USE_NOOP ∅.
Proof.
  apply (proj2 (prelude_only_defines
                  {| has_include := None; gnuc := None; boost_clang := None |}
                  (∅ : macros))).
  vm_compute. intros H. inversion H as [| ? ? ? H1]; subst.
  inversion H1 as [| ? ? ? H2]; subst.
  inversion H2 as [| ? ? ? H3]; subst.
  inversion H3 as [| ? ? ? H4]; subst.
  inversion H4.
Defined.

Lemma link_or_header_only_autodetection (c : compiler) (m : macros) :
  link_or_header_only (backend_autodetection c m)
  = backend_autodetection c (link_or_header_only m).
Proof.
  unfold backend_autodetection, detect_by_platform.
  rewrite no_backend_chosen_link_or_header_only.
  rewrite (link_or_header_only_other WINDOWS) by distinct_macros.
  destruct (no_backend_chosen m); [| reflexivity].
  destruct (has_include c) as [probe |];
    repeat match goal with
           | |- context [if ?b then _ else _] => destruct b
           end;
    apply link_or_header_only_define; distinct_macros.
Qed.

Lemma backend_autodetection_idem (c : compiler) (m : macros) :
  backend_autodetection c (backend_autodetection c m)
  = backend_autodetection c m.
Proof.
  pose proof (backend_autodetection_cases c m) as Hc.
  destruct (no_backend_chosen m) eqn:Hn.
  - assert (Hchosen : no_backend_chosen (backend_autodetection c m) = false).
    { apply not_true_is_false. rewrite <- chosen_backends_nil.
      destruct Hc as [-> | ->].
      - now rewrite chosen_backends_define_windbg.
      - now rewrite chosen_backends_define_addr2line. }
    unfold backend_autodetection at 1. now rewrite Hchosen.
  - now rewrite !Hc.
Qed.

(** X17: the choice of backend does not touch the link settings: the
    replacement of [BOOST_STACKTRACE_FUNCTION] and the inclusion of
    [backend.ipp], which the header decides after the autodetection, are
    what lines 20-27 alone determine. *)
Theorem linkage_independent_of_backend (c : compiler) (m : macros) :
  stacktrace_function (prelude c m)
  = stacktrace_function (link_or_header_only m) /\
  includes_backend_ipp (prelude c m)
  = includes_backend_ipp (link_or_header_only m).
Proof.
  unfold prelude, stacktrace_function, includes_backend_ipp.
  rewrite (backend_autodetection_other c STACKTRACE_LINK) by distinct_macros.
  rewrite (backend_autodetection_other c STACKTRACE_DYN_LINK) by distinct_macros.
  rewrite (backend_autodetection_other c INTERNAL_BUILD_LIBS) by distinct_macros.
  split; reflexivity.
Qed.

(** X10: the prelude is idempotent: run on the macros it leaves, it
    defines nothing more. *)
Theorem prelude_idempotent (c : compiler) (m : macros) :
  prelude c (prelude c m) = prelude c m.
Proof.
  unfold prelude.
  rewrite link_or_header_only_autodetection.
  rewrite link_or_header_only_idem.
  apply backend_autodetection_idem.
Qed.

(* ------------------------------------------------------------------ *)
(** ** More on the comparison operators *)

Lemma operator_le_spec (a b : frame) :
  operator_le a b = true <-> address a <= address b.
Proof.
  unfold operator_le, operator_gt, operator_lt.
  rewrite negb_true_iff. apply Z.ltb_ge.
Qed.

Lemma operator_ge_spec (a b : frame) :
  operator_ge a b = true <-> address b <= address a.
Proof.
  unfold operator_ge, operator_lt.
  rewrite negb_true_iff. apply Z.ltb_ge.
Qed.

Lemma operator_eq_true_iff (a b : frame) : operator_eq a b = true <-> a = b.
Proof.
  rewrite operator_eq_spec. split.
  - apply frame_ext.
  - now intros ->.
Qed.

(** X11: [==] holds exactly between frames with the same state: two
    frames compare equal if and only if they are the same value; [==] is
    reflexive and symmetric. *)
Theorem operator_eq_iff_same_frame (a b : frame) :
  (operator_eq a b = true <-> a = b) /\
  operator_eq a a = true /\
  operator_eq a b = operator_eq b a.
Proof.
  split; [apply operator_eq_true_iff |].
  split; unfold operator_eq.
  - apply Z.eqb_refl.
  - apply Z.eqb_sym.
Qed.

(** X12: [a != b] is [a < b || a > b], and it holds exactly when the two
    frames differ. *)
Theorem operator_ne_iff_ordered (a b : frame) :
  operator_ne a b = operator_lt a b || operator_gt a b /\
  (operator_ne a b = true <-> a <> b).
Proof.
  split.
  - unfold operator_ne, operator_eq, operator_gt, operator_lt.
    destruct (Z.eqb_spec (address a) (address b)),
             (Z.ltb_spec (address a) (address b)),
             (Z.ltb_spec (address b) (address a)); simpl; try reflexivity; lia.
  - unfold operator_ne. rewrite negb_true_iff, <- not_true_iff_false.
    now rewrite operator_eq_true_iff.
Qed.

(** X13: [a <= b] is [a < b || a == b] and [a >= b] is [a > b || a == b],
    although the header defines them by negation. *)
Theorem operator_le_lt_or_eq (a b : frame) :
  operator_le a b = operator_lt a b || operator_eq a b /\
  operator_ge a b = operator_gt a b || operator_eq a b.
Proof.
  unfold operator_le, operator_ge, operator_gt, operator_lt, operator_eq.
  destruct (Z.eqb_spec (address a) (address b)),
           (Z.ltb_spec (address a) (address b)),
           (Z.ltb_spec (address b) (address a)); simpl; split;
    try reflexivity; lia.
Qed.

(** X14: [<=] is a total order on frames: reflexive, transitive, total,
    and antisymmetric ([a <= b] and [b <= a] only for the same frame). *)
Theorem operator_le_total_order (a b c : frame) :
  operator_le a a = true /\
  (operator_le a b = true -> operator_le b c = true -> operator_le a c = true) /\
  operator_le a b || operator_le b a = true /\
  (operator_le a b = true -> operator_le b a = true -> a = b).
Proof.
  rewrite orb_true_iff, !operator_le_spec.
  repeat split; try lia.
  intros Hab Hba. apply frame_ext. lia.
Qed.

Lemma operator_le_total_order_witness :
  operator_le (frame_from 16) (frame_from 64) = true.
Proof.
  apply (proj1 (proj2 (operator_le_total_order
                         (frame_from 16) (frame_from 32) (frame_from 64))));
    reflexivity.
Defined.

(** X15: [empty()] is comparison with the default-constructed frame:
    [f.empty()] is [f == frame()], and [!f] is the same test. *)
Theorem empty_iff_eq_default (f : frame) :
  empty f = operator_eq f frame_default /\
  operator_not f = operator_eq f frame_default /\
  (empty f = true <-> f = frame_default).
Proof.
  assert (He : empty f = operator_eq f frame_default).
  { unfold empty, ptr_to_bool, operator_eq. apply negb_involutive. }
  repeat split; try exact He.
  - rewrite He. apply operator_eq_true_iff.
  - rewrite He. apply operator_eq_true_iff.
Qed.

(* ------------------------------------------------------------------ *)
(** ** Chained stream insertion *)


Example insert_frames_two :
  @insert_frames _ _ table_backend "trace: " [frame_from 4096; frame_from 8192]
  = "trace: main at main.cpp:12helper".
Proof. reflexivity. Qed.

(* ------------------------------------------------------------------ *)
(** ** Examples of configurations *)

Example prelude_modern_gcc_linux :
  chosen_backends
    (prelude {| has_include := Some (fun _ => false); gnuc := Some 9;
                boost_clang := None |} ∅)
  = [USE_ADDR2LINE].
Proof. vm_compute. reflexivity. Qed.

Example prelude_msvc_with_dbgeng :
  chosen_backends
    (prelude {| has_include := Some (String.eqb "Dbgeng.h"); gnuc := None;
                boost_clang := None |} {[ WINDOWS ]})
  = [USE_WINDBG].
Proof. vm_compute. reflexivity. Qed.

Example prelude_old_gcc_on_windows :
  chosen_backends
    (prelude {| has_include := Some (fun _ => false); gnuc := Some 4;
                boost_clang := None |} {[ WINDOWS ]})
  = [USE_WINDBG].
Proof. vm_compute. reflexivity. Qed.

Example prelude_clang_reports_gnuc_4 :
  chosen_backends
    (prelude {| has_include := Some (fun _ => false); gnuc := Some 4;
                boost_clang := Some 1 |} {[ WINDOWS ]})
  = [USE_ADDR2LINE].
Proof. vm_compute. reflexivity. Qed.

Example prelude_two_user_backends_kept :
  chosen_backends
    (prelude {| has_include := None; gnuc := None; boost_clang := None |}
             {[ USE_NOOP; USE_BACKTRACE ]})
  = [USE_NOOP; USE_BACKTRACE].
Proof. vm_compute. reflexivity. Qed.

Example link_with_all_dyn_link :
  stacktrace_function
    (link_or_header_only {[ STACKTRACE_LINK; ALL_DYN_LINK; INTERNAL_BUILD_LIBS ]})
  = spec_symbol_export.
Proof. vm_compute. reflexivity. Qed.

Example link_static :
  stacktrace_function (link_or_header_only {[ STACKTRACE_LINK ]}) = spec_none
  /\ includes_backend_ipp (link_or_header_only {[ STACKTRACE_LINK ]}) = false.
Proof. split; vm_compute; reflexivity. Qed.
